(** * DistributionNonparametric: waiting times to transition probabilities

    A shallow embedding of [src/DistributionNonparametric.cpp] (denim) and the
    properties of its constructor and accessors.

    The C++ code computes on [double].  The embedding is written once over an
    interface of the arithmetic the code uses ([Scalar]) and read at two
    instances: [binary64], the IEEE 754 doubles of the machine (Rocq's
    primitive floats, round to nearest even), which is the program as it runs,
    and [exact], the real numbers, which is the program with rounding left
    out.  Every division the code executes is recorded in a trace, so that
    "a division by zero is performed" is a statement about the model. *)

From Stdlib Require Import String Bool Arith Lia List.
From Stdlib Require Import PrimFloat FloatOps FloatAxioms SpecFloat.
From Stdlib Require Import Reals Lra.
Import ListNotations.

Set Implicit Arguments.

(** ** The arithmetic of [double] used by the code *)

(** [zero] and [one] are the literals [0] and [1] of the source, [add] is
    [+=], [div] is [/=] and [/], [neq] is [!=].  [mul] is not used by the
    code; it is here to state the product form of the hazard identity. *)
Class Scalar (num : Type) : Type := {
  zero : num;
  one : num;
  add : num -> num -> num;
  mul : num -> num -> num;
  div : num -> num -> num;
  neq : num -> num -> bool
}.

(** IEEE 754 binary64. [PrimFloat.eqb] is the IEEE comparison: a NaN differs
    from everything, itself included, and the two zeros are equal.  Equality
    [=] of doubles in the statements below is identity of values: the two
    zeros are distinct and there is one NaN. *)
#[export] Instance binary64 : Scalar float := {|
  zero := 0%float;
  one := 1%float;
  add := PrimFloat.add;
  mul := PrimFloat.mul;
  div := PrimFloat.div;
  neq := fun x y => negb (PrimFloat.eqb x y)
|}.

(** Exact real arithmetic. *)
#[export] Instance exact : Scalar R := {|
  zero := 0%R;
  one := 1%R;
  add := Rplus;
  mul := Rmult;
  div := Rdiv;
  neq := fun x y => if Req_dec_T x y then false else true
|}.

(** ** Computations that record their divisions *)

Module Trace.

(** One executed division [dividend / divisor]. *)
Record division (num : Type) : Type := Div { dividend : num; divisor : num }.

(** A value together with the divisions executed to obtain it, oldest
    first. *)
Definition t (num A : Type) : Type := (A * list (division num))%type.

Definition ret {num A : Type} (a : A) : t num A := (a, []).

Definition bind {num A B : Type} (m : t num A) (f : A -> t num B) : t num B :=
  (fst (f (fst m)), snd m ++ snd (f (fst m))).

Definition value {num A : Type} (m : t num A) : A := fst m.

Definition divisions {num A : Type} (m : t num A) : list (division num) := snd m.

End Trace.

Notation "x <- m ;; k" := (Trace.bind m (fun x => k))
  (at level 61, m at next level, right associativity).

(** The division operator of the code, recorded. *)
Definition divide {num : Type} `{Scalar num} (x y : num) : Trace.t num num :=
  (div x y, [Trace.Div x y]).

(** ** Vectors *)

(** [v[i] = x] on a [std::vector]. The code only assigns below [size()];
    out of range (undefined behaviour in C++) the model leaves [v] as it
    is. *)
Fixpoint assign {A : Type} (v : list A) (i : nat) (x : A) : list A :=
  match v, i with
  | [], _ => []
  | _ :: t, O => x :: t
  | h :: t, S j => h :: assign t j x
  end.

(** ** The class *)

Section Model.

Context {num : Type} `{Scalar num}.

(** [calcTransitionProbHelper], a member inherited from the base class
    [Distribution]; its body is not in [DistributionNonparametric.cpp]. *)
Variable Helper : list num -> nat -> Trace.t num num.

(** The data members. [maxDay] and [distName] are declared in the header;
    [maxDay] is taken as an unbounded natural number. *)
Record DistributionNonparametric_t : Type := Object {
  waitingTime : list num;
  transitionProb : list num;
  maxDay : nat;
  distName : string
}.

(** [double sumWaitingTime {0}; for (auto& wt: waitingTime) sumWaitingTime += wt;] *)
Definition sumWaitingTime (waitingTime : list num) : num :=
  fold_left add waitingTime zero.

(** [for (size_t i {0}; i < waitingTime.size(); ++i) waitingTime[i] /= sumWaitingTime;]
    entered at index [i] with [n] iterations to go.  Assigning an element
    does not change [size()], so the loop started at [0] runs [size()]
    times. *)
Fixpoint normalize (n i : nat) (s : num) (waitingTime : list num)
  : Trace.t num (list num) :=
  match n with
  | O => Trace.ret waitingTime
  | S n' =>
      q <- divide (nth i waitingTime zero) s ;;
      normalize n' (S i) s (assign waitingTime i q)
  end.

(** [transitionProb.push_back(p)] *)
Definition push_back_transitionProb (this : DistributionNonparametric_t) (p : num)
  : DistributionNonparametric_t :=
  {| waitingTime := waitingTime this;
     transitionProb := transitionProb this ++ [p];
     maxDay := maxDay this;
     distName := distName this |}.

(** [for (size_t k {0}; k < waitingTime.size(); ++k)
      transitionProb.push_back(calcTransitionProbHelper(waitingTime, k));]
    entered at index [k] with [n] iterations to go. *)
Fixpoint calcTransitionProb_loop (n k : nat) (this : DistributionNonparametric_t)
  : Trace.t num DistributionNonparametric_t :=
  match n with
  | O => Trace.ret this
  | S n' =>
      p <- Helper (waitingTime this) k ;;
      calcTransitionProb_loop n' (S k) (push_back_transitionProb this p)
  end.

(** [void DistributionNonparametric::calcTransitionProb()] *)
Definition calcTransitionProb (this : DistributionNonparametric_t)
  : Trace.t num DistributionNonparametric_t :=
  this' <- calcTransitionProb_loop (length (waitingTime this)) 0 this ;;
  Trace.ret {| waitingTime := waitingTime this';
               transitionProb := transitionProb this';
               maxDay := length (transitionProb this');
               distName := distName this' |}.

(** The members before the constructor body runs: both vectors are
    default-constructed, hence empty.  The body overwrites [maxDay] and
    [distName]. *)
Definition fresh : DistributionNonparametric_t :=
  {| waitingTime := []; transitionProb := []; maxDay := 0; distName := "" |}.

(** [DistributionNonparametric::DistributionNonparametric(std::vector<double> waitingTime)] *)
Definition DistributionNonparametric (waitingTime0 : list num)
  : Trace.t num DistributionNonparametric_t :=
  let s := sumWaitingTime waitingTime0 in
  wt <- (if neq s one
         then normalize (length waitingTime0) 0 s waitingTime0
         else Trace.ret waitingTime0) ;;
  this <- calcTransitionProb
            {| waitingTime := wt;
               transitionProb := transitionProb fresh;
               maxDay := maxDay fresh;
               distName := distName fresh |} ;;
  Trace.ret {| waitingTime := waitingTime this;
               transitionProb := transitionProb this;
               maxDay := maxDay this;
               distName := "nonparametric" |}.

(** [double DistributionNonparametric::getTransitionProb(size_t index)] *)
Definition getTransitionProb (this : DistributionNonparametric_t) (index : nat) : num :=
  if length (transitionProb this) <=? index
  then one
  else nth index (transitionProb this) zero.

(** [std::vector<double> DistributionNonparametric::getWaitingTime()] *)
Definition getWaitingTime (this : DistributionNonparametric_t) : list num :=
  waitingTime this.

End Model.

Arguments DistributionNonparametric_t num : clear implicits.

(** ** The inherited helper *)

Section Inherited.

Context {num : Type} `{Scalar num}.

(** Modelled from the spec: S(k), the sum the helper divides by, which the
    spec gives as the sum of the entries of [waitingTime] from index [k] to
    the end.  It is accumulated from [0] upwards, like the sum of the
    constructor. *)
Definition suffixSum (waitingTime : list num) (k : nat) : num :=
  fold_left add (skipn k waitingTime) zero.

(** Modelled from the spec: the body of [calcTransitionProbHelper], defined
    by the base class [Distribution] outside [DistributionNonparametric.cpp].
    The spec gives [transitionProb[k] = waitingTime[k] / S(k)]. *)
Definition calcTransitionProbHelper (waitingTime : list num) (idx : nat)
  : Trace.t num num :=
  divide (nth idx waitingTime zero) (suffixSum waitingTime idx).

(** The object built from an input, with the helper of the spec. *)
Definition construct (w : list num) : DistributionNonparametric_t num :=
  Trace.value (DistributionNonparametric calcTransitionProbHelper w).

End Inherited.

(** ** Vocabulary of the properties *)

Section Vocabulary.

Context {num : Type} `{Scalar num}.

(** The waiting times the constructor stores, in closed form: the loops
    are shown to compute it ([constructor_spec]). *)
Definition stored (w : list num) : list num :=
  if neq (sumWaitingTime w) one
  then map (fun x => div x (sumWaitingTime w)) w
  else w.

(** A recorded division whose divisor compares equal to [0]. *)
Definition by_zero (d : Trace.division num) : Prop :=
  neq (Trace.divisor d) zero = false.

(** The computation executes at least one division by zero. *)
Definition divides_by_zero {A : Type} (m : Trace.t num A) : Prop :=
  Exists by_zero (Trace.divisions m).

(** The product form of the hazard identity at index [k]:
    [transitionProb[k] * S(k) = waitingTime[k]]. *)
Definition hazard_product (this : DistributionNonparametric_t num) (k : nat) : Prop :=
  mul (nth k (transitionProb this) zero) (suffixSum (waitingTime this) k)
  = nth k (waitingTime this) zero.

(** The quotient form: [transitionProb[k] = waitingTime[k] / S(k)]. *)
Definition hazard_quotient (this : DistributionNonparametric_t num) (k : nat) : Prop :=
  nth k (transitionProb this) zero
  = div (nth k (waitingTime this) zero) (suffixSum (waitingTime this) k).

End Vocabulary.

(** A weight that is zero as a double: [+0] or [-0]. *)
Definition zero_weight (x : float) : Prop := x = 0%float \/ x = (-0)%float.

(** * Properties *)

(** ** Vectors and traces *)

Lemma length_assign (A : Type) (v : list A) (i : nat) (x : A) :
  length (assign v i x) = length v.
Proof.
  revert i; induction v as [|h t IH]; intros [|j]; simpl; auto.
Qed.

Lemma assign_middle (A : Type) (pre post : list A) (a x : A) :
  assign (pre ++ a :: post) (length pre) x = pre ++ x :: post.
Proof.
  induction pre as [|h t IH]; simpl; [reflexivity | now rewrite IH].
Qed.

Lemma value_bind (num A B : Type) (m : Trace.t num A) (f : A -> Trace.t num B) :
  Trace.value (x <- m ;; f x) = Trace.value (f (Trace.value m)).
Proof. reflexivity. Qed.

Lemma divisions_bind (num A B : Type) (m : Trace.t num A) (f : A -> Trace.t num B) :
  Trace.divisions (x <- m ;; f x)
  = Trace.divisions m ++ Trace.divisions (f (Trace.value m)).
Proof. reflexivity. Qed.

(** ** The loops of the constructor, for any arithmetic and any helper *)

Section Loops.

Context {num : Type} `{Scalar num}.
Variable Helper : list num -> nat -> Trace.t num num.

(** The normalisation loop entered at the end of [pre] divides each
    remaining element by [s], in order, and touches nothing else. *)
Lemma normalize_middle (s : num) (post pre : list num) :
  normalize (length post) (length pre) s (pre ++ post)
  = (pre ++ map (fun x => div x s) post, map (fun x => Trace.Div x s) post).
Proof.
  revert pre; induction post as [|a post IH]; intros pre; simpl.
  - now rewrite app_nil_r.
  - unfold Trace.bind, divide; simpl.
    rewrite nth_middle, assign_middle.
    specialize (IH (pre ++ [div a s])).
    rewrite length_app, Nat.add_1_r, <- app_assoc in IH; simpl in IH.
    rewrite IH; simpl. now rewrite <- app_assoc.
Qed.

Lemma normalize_all (s : num) (w : list num) :
  normalize (length w) 0 s w
  = (map (fun x => div x s) w, map (fun x => Trace.Div x s) w).
Proof. exact (normalize_middle s w []). Qed.

(** The values the push-back loop appends, and the divisions it runs. *)
Lemma calcTransitionProb_loop_spec (n k : nat) (this : DistributionNonparametric_t num) :
  calcTransitionProb_loop Helper n k this
  = ({| waitingTime := waitingTime this;
        transitionProb :=
          transitionProb this
          ++ map (fun j => Trace.value (Helper (waitingTime this) j)) (seq k n);
        maxDay := maxDay this;
        distName := distName this |},
     flat_map (fun j => Trace.divisions (Helper (waitingTime this) j)) (seq k n)).
Proof.
  revert k this; induction n as [|n IH]; intros k this; simpl.
  - rewrite app_nil_r. now destruct this.
  - unfold Trace.bind. rewrite IH; simpl.
    now rewrite <- app_assoc.
Qed.

Lemma constructor_spec (w : list num) :
  Trace.value (DistributionNonparametric Helper w)
  = {| waitingTime := stored w;
       transitionProb :=
         map (fun j => Trace.value (Helper (stored w) j)) (seq 0 (length w));
       maxDay := length w;
       distName := "nonparametric" |}.
Proof.
  unfold DistributionNonparametric, calcTransitionProb, stored.
  rewrite !value_bind.
  assert (E : Trace.value
                (if neq (sumWaitingTime w) one
                 then normalize (length w) 0 (sumWaitingTime w) w
                 else Trace.ret w)
              = if neq (sumWaitingTime w) one
                then map (fun x => div x (sumWaitingTime w)) w
                else w).
  { destruct (neq (sumWaitingTime w) one); [now rewrite normalize_all | reflexivity]. }
  rewrite E; clear E.
  set (wt := if neq (sumWaitingTime w) one then _ else _).
  assert (L : length wt = length w).
  { unfold wt; destruct (neq _ _); [apply length_map | reflexivity]. }
  cbn [waitingTime]. rewrite calcTransitionProb_loop_spec. 
  unfold Trace.value, Trace.ret; cbn.
  now rewrite length_map, length_seq, L.
Qed.

(** The divisions the constructor executes: those of the normalisation
    loop when it runs, then those of the helper, call after call. *)
Lemma constructor_divisions (w : list num) :
  Trace.divisions (DistributionNonparametric Helper w)
  = (if neq (sumWaitingTime w) one
     then map (fun x => Trace.Div x (sumWaitingTime w)) w
     else [])
    ++ flat_map (fun j => Trace.divisions (Helper (stored w) j)) (seq 0 (length w)).
Proof.
  unfold DistributionNonparametric, calcTransitionProb, stored.
  rewrite !divisions_bind, !value_bind.
  destruct (neq (sumWaitingTime w) one).
  - rewrite normalize_all. unfold Trace.value, Trace.divisions; cbn.
    rewrite calcTransitionProb_loop_spec; cbn.
    now rewrite !app_nil_r, length_map.
  - unfold Trace.value, Trace.divisions; cbn.
    rewrite calcTransitionProb_loop_spec; cbn.
    now rewrite !app_nil_r.
Qed.

(** On the empty vector neither loop body runs. *)
Lemma constructor_empty :
  DistributionNonparametric Helper []
  = ({| waitingTime := []; transitionProb := []; maxDay := 0;
        distName := "nonparametric" |}, []).
Proof.
  unfold DistributionNonparametric; simpl.
  now destruct (neq (sumWaitingTime []) one).
Qed.

End Loops.

(** ** Invariants of every constructed object *)

Section Constructed.

Context {num : Type} `{Scalar num}.
Variable Helper : list num -> nat -> Trace.t num num.

Lemma length_stored (w : list num) : length (stored w) = length w.
Proof. unfold stored; destruct (neq _ _); [apply length_map | reflexivity]. Qed.

(** C4. After construction, for every input sequence, the
    transition-probability sequence is as long as the stored waiting-time
    sequence, and [maxDay] is that common length (which is the length of
    the input). *)
Theorem length_invariant (w : list num) :
  let this := Trace.value (DistributionNonparametric Helper w) in
  length (transitionProb this) = length (getWaitingTime this)
  /\ maxDay this = length (transitionProb this)
  /\ maxDay this = length w.
Proof.
  cbv zeta. rewrite constructor_spec; unfold getWaitingTime; cbn.
  now rewrite length_map, length_seq, length_stored.
Qed.

(** C2. On every constructed object, [getTransitionProb] returns exactly
    [1] at every index at or beyond [maxDay], and the stored
    transition probability at every index below it. *)
Theorem getTransitionProb_contract (w : list num) (index : nat) :
  let this := Trace.value (DistributionNonparametric Helper w) in
  (maxDay this <= index -> getTransitionProb this index = one)
  /\ (index < maxDay this ->
      nth_error (transitionProb this) index = Some (getTransitionProb this index)).
Proof.
  cbv zeta. rewrite constructor_spec; unfold getTransitionProb; cbn.
  set (tp := map _ _).
  assert (M : length w = length tp)
    by (unfold tp; now rewrite length_map, length_seq).
  rewrite M; clear M.
  split; intros L.
  - apply Nat.leb_le in L. now rewrite L.
  - destruct (Nat.leb_spec (length tp) index) as [G|_]; [lia|].
    now apply nth_error_nth'.
Qed.

(** C9. Constructing with the empty sequence executes no division at all
    (neither loop body runs, so the helper is never called), leaves both
    sequences empty and [maxDay = 0]; [getWaitingTime] returns the empty
    sequence and [getTransitionProb] returns [1] at every index. *)
Theorem empty_input :
  let m := DistributionNonparametric Helper [] in
  Trace.divisions m = []
  /\ getWaitingTime (Trace.value m) = []
  /\ transitionProb (Trace.value m) = []
  /\ maxDay (Trace.value m) = 0
  /\ forall index : nat, getTransitionProb (Trace.value m) index = one.
Proof.
  cbv zeta. rewrite constructor_empty. repeat split; reflexivity.
Qed.

(** Without normalisation the stored waiting times are the input. *)
Lemma stored_normalized (w : list num) :
  neq (sumWaitingTime w) one = false ->
  getWaitingTime (Trace.value (DistributionNonparametric Helper w)) = w.
Proof.
  intros E. rewrite constructor_spec; unfold getWaitingTime, stored; cbn.
  now rewrite E.
Qed.

End Constructed.

(** Witness of C2 on the doubles [1, 1, 2]: index 5 is beyond [maxDay = 3],
    index 1 is below it. *)
Lemma getTransitionProb_contract_witness :
  getTransitionProb (construct [1; 1; 2]%float) 5 = 1%float
  /\ nth_error (transitionProb (construct [1; 1; 2]%float)) 1
     = Some (getTransitionProb (construct [1; 1; 2]%float) 1).
Proof.
  split.
  - refine (proj1 (getTransitionProb_contract calcTransitionProbHelper [1; 1; 2]%float 5) _).
    vm_compute. lia.
  - refine (proj2 (getTransitionProb_contract calcTransitionProbHelper [1; 1; 2]%float 1) _).
    vm_compute. lia.
Defined.

(** ** The program as it runs: IEEE doubles *)

(** Two doubles that differ under the IEEE comparison are different. *)
Lemma eqb_false_neq (x y : float) : PrimFloat.eqb x y = false -> PrimFloat.eqb y y = true -> x <> y.
Proof. intros F T E; subst x; congruence. Qed.

(** C5. Scenario A: the doubles [1, 1, 2] are stored as
    [0.25, 0.25, 0.5]; the transition probabilities are [0.25],
    [0.25 / 0.75] and [1]; [maxDay = 3]; [getTransitionProb] is [1] at
    indices 3 and 100. *)
Theorem scenario_A :
  let this := construct [1; 1; 2]%float in
  getWaitingTime this = [0.25; 0.25; 0.5]%float
  /\ nth 0 (transitionProb this) 0%float = 0.25%float
  /\ nth 1 (transitionProb this) 0%float = (0.25 / 0.75)%float
  /\ nth 2 (transitionProb this) 0%float = 1%float
  /\ maxDay this = 3
  /\ getTransitionProb this 3 = 1%float
  /\ getTransitionProb this 100 = 1%float.
Proof. vm_compute. repeat split; reflexivity. Qed.

(** C8. Scenario C: the doubles [1, 0, 0, 1] are stored as
    [0.5, 0, 0, 0.5]; the suffix sums at 1 and 2 are [0.5], and the
    transition probabilities at 1, 2 and 3 are [0], [0] and [1]. *)
Theorem scenario_C :
  let this := construct [1; 0; 0; 1]%float in
  getWaitingTime this = [0.5; 0; 0; 0.5]%float
  /\ suffixSum (getWaitingTime this) 1 = 0.5%float
  /\ suffixSum (getWaitingTime this) 2 = 0.5%float
  /\ nth 1 (transitionProb this) 1%float = 0%float
  /\ nth 2 (transitionProb this) 1%float = 0%float
  /\ nth 3 (transitionProb this) 0%float = 1%float.
Proof. vm_compute. repeat split; reflexivity. Qed.

(** C6. An input whose sum, as the constructor computes it, compares equal
    to [1] is stored unchanged, in any arithmetic and with any helper; the
    doubles [0.5, 0.5] are stored as [0.5, 0.5] with transition
    probabilities [0.5, 1]. *)
Theorem normalization_idempotent :
  (forall (num : Type) (S : Scalar num)
          (Helper : list num -> nat -> Trace.t num num) (w : list num),
      neq (sumWaitingTime w) one = false ->
      getWaitingTime (Trace.value (DistributionNonparametric Helper w)) = w)
  /\ (let this := construct [0.5; 0.5]%float in
      getWaitingTime this = [0.5; 0.5]%float
      /\ transitionProb this = [0.5; 1]%float).
Proof.
  split.
  - intros num S Helper w E. now apply stored_normalized.
  - vm_compute. split; reflexivity.
Qed.

(** Witness of C6: the doubles [0.25, 0.25, 0.5] sum to [1]. *)
Lemma normalization_idempotent_witness :
  getWaitingTime
    (Trace.value (DistributionNonparametric calcTransitionProbHelper [0.25; 0.25; 0.5]%float))
  = [0.25; 0.25; 0.5]%float.
Proof.
  refine (proj1 normalization_idempotent float binary64 calcTransitionProbHelper _ _).
  vm_compute. reflexivity.
Defined.

(** *** Rounding and exhausted tails *)

(** Counterexample to C1 as stated. The doubles [1, 0] sum to [1] and are
    stored as they are; the suffix sum at index 1 is [0], so the transition
    probability there is [0 / 0], a NaN, and [NaN * 0] is not the waiting
    time [0]. *)
Lemma hazard_product_counterexample :
  let this := construct [1; 0]%float in
  getWaitingTime this = [1; 0]%float
  /\ suffixSum (waitingTime this) 1 = 0%float
  /\ nth 1 (transitionProb this) 0%float = nan
  /\ ~ hazard_product this 1.
Proof.
  cbv zeta. repeat split; try (vm_compute; reflexivity).
  unfold hazard_product. apply eqb_false_neq; vm_compute; reflexivity.
Qed.

(** Rounding. Ten weights [1] have the positive sum [10]; each is stored
    as the double nearest to one tenth, and these ten doubles add up to the
    double just below [1], whatever the helper. *)
Lemma normalization_rounding :
  sumWaitingTime (repeat 1%float 10) = 10%float
  /\ sumWaitingTime (getWaitingTime (construct (repeat 1%float 10)))
     = 0x1.fffffffffffffp-1%float
  /\ ~ exists Helper : list float -> nat -> Trace.t float float,
         sumWaitingTime
           (getWaitingTime
              (Trace.value (DistributionNonparametric Helper (repeat 1%float 10))))
         = 1%float.
Proof.
  repeat split; try (vm_compute; reflexivity).
  intros [Helper E]. rewrite constructor_spec in E.
  revert E. apply eqb_false_neq; vm_compute; reflexivity.
Qed.

(** Counterexample to C3, also when its sum is read up to rounding. The
    two finite doubles [2^1023, 2^1023] form a non-empty input whose sum,
    as the constructor computes it, overflows to [+infinity], which is
    positive and differs from [1]; each weight is divided by it and stored
    as [0]. The stored waiting times add up to [0], at distance [1] from
    [1], whatever the helper. *)
Lemma normalization_overflow_counterexample :
  let w := [0x1p1023; 0x1p1023]%float in
  Forall (fun x => is_finite x = true) w
  /\ sumWaitingTime w = infinity
  /\ (0 <? sumWaitingTime w)%float = true
  /\ getWaitingTime (construct w) = [0; 0]%float
  /\ sumWaitingTime (getWaitingTime (construct w)) = 0%float
  /\ ~ exists Helper : list float -> nat -> Trace.t float float,
         sumWaitingTime
           (getWaitingTime (Trace.value (DistributionNonparametric Helper w)))
         = 1%float.
Proof.
  cbv zeta. repeat split; try (vm_compute; reflexivity).
  - repeat apply Forall_cons; try apply Forall_nil; vm_compute; reflexivity.
  - intros [Helper E]. rewrite constructor_spec in E.
    revert E. apply eqb_false_neq; vm_compute; reflexivity.
Qed.

(** Counterexample to C7 as stated. On the empty sequence no division by
    zero is executed, whatever the helper: no division is executed. *)
Lemma empty_input_counterexample :
  ~ exists Helper : list float -> nat -> Trace.t float float,
      divides_by_zero (DistributionNonparametric Helper []).
Proof.
  intros [Helper D]. unfold divides_by_zero in D.
  rewrite constructor_empty in D. inversion D.
Qed.

Section AllZero.

Variable Helper : list float -> nat -> Trace.t float float.

Lemma sum_zero_weights (w : list float) :
  Forall zero_weight w -> sumWaitingTime w = 0%float.
Proof.
  unfold sumWaitingTime. induction 1 as [|x w [Z|Z] _ IH]; simpl.
  - reflexivity.
  - subst x. exact IH.
  - subst x. exact IH.
Qed.

Lemma zero_over_zero (w : list float) :
  Forall zero_weight w ->
  map (fun x => div x 0%float) w = repeat nan (length w).
Proof.
  induction 1 as [|x w [Z|Z] _ IH]; [reflexivity | | ];
    subst x; exact (f_equal (cons nan) IH).
Qed.

Lemma stored_zero_weights (w : list float) :
  Forall zero_weight w -> stored w = repeat nan (length w).
Proof.
  intros Z. unfold stored. rewrite (sum_zero_weights Z). cbn.
  now apply zero_over_zero.
Qed.

(** C7, amended. On a non-empty sequence of zero weights the
    normalisation loop executes one division per element, each by the sum
    [0]: nothing guards it and construction returns its object, in which
    every stored waiting time is a NaN; the helper is then called on that
    sequence of NaNs. *)
Theorem all_zero_weights (w : list float) :
  w <> [] -> Forall zero_weight w ->
  let m := DistributionNonparametric Helper w in
  divides_by_zero m
  /\ (exists rest,
         Trace.divisions m = map (fun x => Trace.Div x 0%float) w ++ rest)
  /\ getWaitingTime (Trace.value m) = repeat nan (length w)
  /\ transitionProb (Trace.value m)
     = map (fun k => Trace.value (Helper (repeat nan (length w)) k))
           (seq 0 (length w)).
Proof.
  intros N Z. cbv zeta.
  assert (D : Trace.divisions (DistributionNonparametric Helper w)
              = map (fun x => Trace.Div x 0%float) w
                ++ flat_map (fun j => Trace.divisions (Helper (stored w) j))
                            (seq 0 (length w))).
  { rewrite constructor_divisions, (sum_zero_weights Z). reflexivity. }
  repeat split.
  - unfold divides_by_zero. rewrite D.
    destruct w as [|x w]; [congruence|]. simpl.
    apply Exists_cons_hd. reflexivity.
  - eexists. exact D.
  - rewrite constructor_spec; unfold getWaitingTime; cbn.
    now apply stored_zero_weights.
  - rewrite constructor_spec; cbn. now rewrite (stored_zero_weights Z).
Qed.

End AllZero.

(** Witness of C7: three zero weights, the last one negative zero. *)
Lemma all_zero_weights_witness :
  divides_by_zero (DistributionNonparametric calcTransitionProbHelper [0; 0; -0]%float)
  /\ getWaitingTime (construct [0; 0; -0]%float) = [nan; nan; nan].
Proof.
  assert (N : [0; 0; -0]%float <> []) by discriminate.
  assert (Z : Forall zero_weight [0; 0; -0]%float).
  { repeat apply Forall_cons; [left | left | right | apply Forall_nil]; reflexivity. }
  split.
  - exact (proj1 (all_zero_weights calcTransitionProbHelper N Z)).
  - exact (proj1 (proj2 (proj2 (all_zero_weights calcTransitionProbHelper N Z)))).
Defined.

(** With the helper of the spec, the transition probabilities of zero
    weights are NaNs as well: each is [NaN / NaN]. *)
Lemma all_zero_weights_hazard :
  transitionProb (construct [0; 0; -0]%float) = [nan; nan; nan]
  /\ Trace.divisions (DistributionNonparametric calcTransitionProbHelper [0; 0; -0]%float)
     = [Trace.Div 0 0; Trace.Div 0 0; Trace.Div (-0) 0;
        Trace.Div nan nan; Trace.Div nan nan; Trace.Div nan nan]%float.
Proof. vm_compute. split; reflexivity. Qed.

(** ** The hazard identity, with the helper of the spec *)

(** The quotient form holds at every index of every constructed object, in
    any arithmetic. *)
Lemma construct_hazard_quotient (num : Type) (S : Scalar num) (w : list num) (k : nat) :
  k < length w -> hazard_quotient (construct w) k.
Proof.
  intros L. unfold hazard_quotient, construct.
  rewrite constructor_spec; cbn [transitionProb waitingTime].
  set (f := fun j => Trace.value (calcTransitionProbHelper (stored w) j)).
  rewrite (nth_indep _ zero (f 0)) by now rewrite length_map, length_seq.
  rewrite map_nth, seq_nth by exact L. reflexivity.
Qed.

(** ** The program without rounding: exact real arithmetic *)

Section Exact.

Local Open Scope R_scope.

Variable Helper : list R -> nat -> Trace.t R R.

Lemma neq_exact (x y : R) : neq x y = false <-> x = y.
Proof. cbn. destruct (Req_dec_T x y); split; congruence. Qed.

Lemma fold_left_Rplus (l : list R) (a : R) :
  fold_left Rplus l a = a + fold_left Rplus l 0.
Proof.
  revert a; induction l as [|x l IH]; intros a; simpl.
  - lra.
  - rewrite (IH (a + x)), (IH (0 + x)). lra.
Qed.

Lemma sum_cons (x : R) (l : list R) :
  sumWaitingTime (x :: l) = x + sumWaitingTime l.
Proof.
  unfold sumWaitingTime; cbn. rewrite fold_left_Rplus.
  fold (fold_left Rplus l 0). lra.
Qed.

Lemma sum_scaled (c : R) (l : list R) :
  sumWaitingTime (map (Rmult c) l) = c * sumWaitingTime l.
Proof.
  induction l as [|x l IH].
  - unfold sumWaitingTime; cbn. lra.
  - cbn [map]. rewrite !sum_cons, IH. lra.
Qed.

Lemma sum_divided (s : R) (l : list R) :
  sumWaitingTime (map (fun x => x / s) l) = sumWaitingTime l / s.
Proof.
  induction l as [|x l IH].
  - unfold sumWaitingTime; cbn. unfold Rdiv. lra.
  - cbn [map]. rewrite !sum_cons, IH. unfold Rdiv. lra.
Qed.

(** The stored waiting times of an input with non-zero sum are the input
    divided by its sum, normalised or not. *)
Lemma stored_exact (w : list R) :
  sumWaitingTime w <> 0 -> stored w = map (fun x => x / sumWaitingTime w) w.
Proof.
  intros P. unfold stored.
  destruct (neq (sumWaitingTime w) one) eqn:E; [reflexivity|].
  apply neq_exact in E. rewrite E.
  rewrite <- (map_id w) at 1. apply map_ext.
  intros x. cbn. unfold Rdiv. now rewrite Rinv_1, Rmult_1_r.
Qed.

(** Renormalising changes nothing: the stored waiting times of stored
    waiting times are themselves. *)
Lemma stored_twice (w : list R) :
  0 < sumWaitingTime w -> stored (stored w) = stored w.
Proof.
  intros P.
  assert (E : sumWaitingTime (stored w) = 1).
  { rewrite stored_exact, sum_divided by lra. apply Rdiv_diag. lra. }
  pose proof (proj2 (neq_exact (sumWaitingTime (stored w)) one) E) as N.
  unfold stored at 1. now rewrite N.
Qed.

(** C3, amended. In exact arithmetic, that is with the rounding and the
    overflow of doubles left out, the waiting times stored for a non-empty
    input with positive sum add up to [1]. *)
Theorem normalization_exact (w : list R) :
  w <> [] -> 0 < sumWaitingTime w ->
  sumWaitingTime
    (getWaitingTime (Trace.value (DistributionNonparametric Helper w))) = 1.
Proof.
  intros _ P. rewrite constructor_spec; unfold getWaitingTime; cbn [waitingTime].
  rewrite stored_exact, sum_divided by lra.
  apply Rdiv_diag. lra.
Qed.

(** C10. In exact arithmetic, scaling a non-empty input of positive sum
    by a positive constant [c] with [c * sum <> 1] changes neither the
    stored waiting times nor the transition probabilities, whatever the
    helper computes from the stored waiting times. *)
Theorem scale_invariance (w : list R) (c : R) :
  w <> [] -> 0 < sumWaitingTime w -> 0 < c -> c * sumWaitingTime w <> 1 ->
  let scaled := Trace.value (DistributionNonparametric Helper (map (Rmult c) w)) in
  let plain := Trace.value (DistributionNonparametric Helper w) in
  getWaitingTime scaled = getWaitingTime plain
  /\ transitionProb scaled = transitionProb plain.
Proof.
  intros _ P C _. cbv zeta.
  assert (E : stored (map (Rmult c) w) = stored w).
  { rewrite !stored_exact; rewrite ?sum_scaled; try nra.
    rewrite map_map. apply map_ext. intros x. field. lra. }
  rewrite !constructor_spec; unfold getWaitingTime; cbn.
  now rewrite E, length_map.
Qed.

End Exact.

(** Scenarios A and C hold in exact arithmetic as they do on doubles. *)
Lemma scenarios_exact :
  getWaitingTime (construct [1; 1; 2]%R) = [1/4; 1/4; 1/2]%R
  /\ transitionProb (construct [1; 1; 2]%R) = [1/4; (1/4) / (3/4); 1]%R
  /\ getWaitingTime (construct [1; 0; 0; 1]%R) = [1/2; 0; 0; 1/2]%R
  /\ transitionProb (construct [1; 0; 0; 1]%R) = [1/2; 0; 0; 1]%R.
Proof.
  unfold construct, getWaitingTime. rewrite !constructor_spec.
  cbn [waitingTime transitionProb].
  rewrite !stored_exact by (unfold sumWaitingTime; cbn; lra).
  unfold sumWaitingTime, calcTransitionProbHelper, suffixSum, divide, Trace.value.
  cbn. repeat split; repeat (f_equal; try (field; lra)); try lra.
Qed.

(** Witness of C3: the reals [1, 1, 2]. *)
Lemma normalization_exact_witness :
  sumWaitingTime
    (getWaitingTime
       (Trace.value (DistributionNonparametric calcTransitionProbHelper [1; 1; 2]%R)))
  = 1%R.
Proof.
  refine (normalization_exact calcTransitionProbHelper (w := [1; 1; 2]%R) _ _).
  - discriminate.
  - unfold sumWaitingTime; cbn. lra.
Defined.

(** Witness of C10: the reals [1, 1, 2] scaled by [3]. *)
Lemma scale_invariance_witness :
  getWaitingTime
    (Trace.value (DistributionNonparametric calcTransitionProbHelper
                    (map (Rmult 3) [1; 1; 2]%R)))
  = getWaitingTime
      (Trace.value (DistributionNonparametric calcTransitionProbHelper [1; 1; 2]%R))
  /\ transitionProb
       (Trace.value (DistributionNonparametric calcTransitionProbHelper
                       (map (Rmult 3) [1; 1; 2]%R)))
     = transitionProb
         (Trace.value (DistributionNonparametric calcTransitionProbHelper [1; 1; 2]%R)).
Proof.
  refine (scale_invariance calcTransitionProbHelper (w := [1; 1; 2]%R) (c := 3%R) _ _ _ _).
  - discriminate.
  - unfold sumWaitingTime; cbn. lra.
  - lra.
  - unfold sumWaitingTime; cbn. lra.
Defined.

(** C1, amended. With the helper of the spec, every transition probability
    is the quotient [waitingTime[k] / S(k)] of the stored waiting times, in
    any arithmetic; in exact arithmetic the product
    [transitionProb[k] * S(k)] is [waitingTime[k]] wherever [S(k)] is not
    zero. *)
Theorem hazard_correctness :
  (forall (num : Type) (S : Scalar num) (w : list num) (k : nat),
      k < length w -> hazard_quotient (construct w) k)
  /\ (forall (w : list R) (k : nat),
         k < length w ->
         suffixSum (waitingTime (construct w)) k <> 0%R ->
         hazard_product (construct w) k).
Proof.
  split.
  - intros num S w k L. now apply construct_hazard_quotient.
  - intros w k L P. unfold hazard_product.
    pose proof (@construct_hazard_quotient R exact w k L) as Q.
    unfold hazard_quotient in Q. rewrite Q. cbn. field. exact P.
Qed.

(** Witness of C1: the doubles [1, 1, 2] at index 1 for the quotient, the
    reals [1, 1, 2] at index 1 for the product. *)
Lemma hazard_correctness_witness :
  hazard_quotient (construct [1; 1; 2]%float) 1
  /\ hazard_product (construct [1; 1; 2]%R) 1.
Proof.
  split.
  - refine (proj1 hazard_correctness float binary64 [1; 1; 2]%float 1 _).
    cbn. lia.
  - refine (proj2 hazard_correctness [1; 1; 2]%R 1%nat _ _).
    + cbn. lia.
    + unfold construct. rewrite constructor_spec. cbn [waitingTime].
      rewrite stored_exact by (unfold sumWaitingTime; cbn; lra).
      unfold suffixSum, sumWaitingTime; cbn. lra.
Defined.

(** * Further properties of the constructor *)

(** ** For any arithmetic and any helper *)

Section Coverage.

Context {num : Type} `{Scalar num}.
Variable Helper : list num -> nat -> Trace.t num num.

(** X1. When the computed sum differs from [1], the stored waiting times
    are the input weights, each divided by the sum of the whole input as
    computed before the loop: the index loop is an element-wise map that
    keeps order and length. *)
Theorem normalization_closed_form (w : list num) :
  neq (sumWaitingTime w) one = true ->
  getWaitingTime (Trace.value (DistributionNonparametric Helper w))
  = map (fun x => div x (sumWaitingTime w)) w.
Proof.
  intros E. rewrite constructor_spec; unfold getWaitingTime, stored; cbn.
  now rewrite E.
Qed.

(** X2. The divisions construction executes are, in this order: one
    division of each input weight by the sum when the sum differs from [1]
    (none otherwise), then those of one helper call per index
    [0 .. maxDay - 1], in increasing order, each on the stored waiting
    times. *)
Theorem construction_trace (w : list num) :
  let m := DistributionNonparametric Helper w in
  Trace.divisions m
  = (if neq (sumWaitingTime w) one
     then map (fun x => Trace.Div x (sumWaitingTime w)) w
     else [])
    ++ flat_map
         (fun k => Trace.divisions (Helper (getWaitingTime (Trace.value m)) k))
         (seq 0 (maxDay (Trace.value m))).
Proof.
  cbv zeta. rewrite constructor_divisions, constructor_spec.
  reflexivity.
Qed.

(** X3. Every transition probability below the length of the input is what
    the helper returns on the stored waiting times (normalised when the
    sum differs from [1], not the raw input) at that index. *)
Theorem transitionProb_by_helper (w : list num) (k : nat) :
  k < length w ->
  let this := Trace.value (DistributionNonparametric Helper w) in
  getTransitionProb this k = Trace.value (Helper (getWaitingTime this) k).
Proof.
  intros L. cbv zeta. rewrite constructor_spec.
  unfold getTransitionProb, getWaitingTime; cbn.
  rewrite length_map, length_seq.
  destruct (Nat.leb_spec (length w) k) as [G|_]; [lia|].
  set (f := fun j => Trace.value (Helper (stored w) j)).
  rewrite (nth_indep _ zero (f 0)) by now rewrite length_map, length_seq.
  rewrite map_nth, seq_nth by exact L. reflexivity.
Qed.

(** X4. A non-empty input whose computed sum compares equal to [0] (and so
    differs from [1]) makes the constructor divide by zero: the
    normalisation loop is entered and its first division already has the
    zero sum as divisor. *)
Theorem zero_sum_divides (w : list num) :
  w <> [] ->
  neq (sumWaitingTime w) zero = false ->
  neq (sumWaitingTime w) one = true ->
  divides_by_zero (DistributionNonparametric Helper w).
Proof.
  intros N Z O. unfold divides_by_zero.
  rewrite constructor_divisions, O.
  destruct w as [|x w]; [congruence|].
  cbn [map app]. apply Exists_cons_hd. exact Z.
Qed.

(** X5. When the computed sum does not compare equal to [0], the
    constructor's own loop never divides by zero: if no helper call on the
    stored waiting times divides by zero, construction does not either. *)
Theorem nonzero_sum_safe (w : list num) :
  neq (sumWaitingTime w) zero = true ->
  (forall k, k < length w ->
     ~ divides_by_zero
         (Helper (getWaitingTime (Trace.value (DistributionNonparametric Helper w))) k)) ->
  ~ divides_by_zero (DistributionNonparametric Helper w).
Proof.
  intros Z S. rewrite constructor_spec in S. unfold getWaitingTime in S; cbn in S.
  unfold divides_by_zero. rewrite constructor_divisions.
  intros D. apply Exists_app in D. destruct D as [D|D].
  - destruct (neq (sumWaitingTime w) one); [|inversion D].
    apply Exists_exists in D. destruct D as (d & I & B).
    apply in_map_iff in I. destruct I as (x & <- & _).
    unfold by_zero in B; cbn in B. congruence.
  - apply Exists_exists in D. destruct D as (d & I & B).
    apply in_flat_map in I. destruct I as (k & K & I).
    apply in_seq in K. apply (S k); [lia|].
    apply Exists_exists. now exists d.
Qed.

End Coverage.

(** Witness of X1: the doubles [1, 1, 2], of sum [4]. *)
Lemma normalization_closed_form_witness :
  getWaitingTime
    (Trace.value (DistributionNonparametric calcTransitionProbHelper [1; 1; 2]%float))
  = map (fun x => div x (sumWaitingTime [1; 1; 2]%float)) [1; 1; 2]%float.
Proof.
  refine (normalization_closed_form calcTransitionProbHelper [1; 1; 2]%float _).
  vm_compute. reflexivity.
Defined.

(** Witness of X3: the doubles [1, 1, 2] at index 1. *)
Lemma transitionProb_by_helper_witness :
  getTransitionProb (construct [1; 1; 2]%float) 1
  = Trace.value (calcTransitionProbHelper (getWaitingTime (construct [1; 1; 2]%float)) 1).
Proof.
  refine (transitionProb_by_helper calcTransitionProbHelper [1; 1; 2]%float (k := 1) _).
  cbn. lia.
Defined.

(** Witness of X4: the doubles [1, -1] cancel to the sum [0]. *)
Lemma zero_sum_divides_witness :
  divides_by_zero (DistributionNonparametric calcTransitionProbHelper [1; -1]%float).
Proof.
  refine (zero_sum_divides calcTransitionProbHelper (w := [1; -1]%float) _ _ _).
  - discriminate.
  - vm_compute. reflexivity.
  - vm_compute. reflexivity.
Defined.

(** Witness of X5: on the doubles [1, 1, 2] the helper of the spec divides
    by the suffix sums [1], [0.75] and [0.5]. *)
Lemma nonzero_sum_safe_witness :
  ~ divides_by_zero (DistributionNonparametric calcTransitionProbHelper [1; 1; 2]%float).
Proof.
  refine (nonzero_sum_safe (Helper := calcTransitionProbHelper) (w := [1; 1; 2]%float) _ _).
  - vm_compute. reflexivity.
  - intros k L D.
    destruct k as [|[|[|k]]]; [| | |cbn in L; lia];
      vm_compute in D; inversion D as [? ? B|? ? B];
      solve [discriminate B | inversion B].
Defined.

(** ** In exact arithmetic *)

Section ExactCoverage.

Local Open Scope R_scope.

Variable Helper : list R -> nat -> Trace.t R R.

(** A non-negative weight is at most the sum of non-negative weights it
    belongs to. *)
Lemma weight_le_sum (w : list R) :
  Forall (fun x => 0 <= x) w ->
  0 <= sumWaitingTime w /\ forall x, In x w -> x <= sumWaitingTime w.
Proof.
  induction 1 as [|a w A _ [P IH]].
  - split; [unfold sumWaitingTime; cbn; lra | intros x []].
  - rewrite sum_cons. split; [lra|].
    intros x [<-|I]; [lra|]. specialize (IH x I). lra.
Qed.

(** X6. In exact arithmetic, constructing again from the waiting times a
    constructed object returns gives back the same object, for every input
    of non-zero sum: the stored sequence sums to [1], so it is stored
    unchanged, and the transition probabilities are recomputed from the
    same sequence. *)
Theorem reconstruction_exact (w : list R) :
  sumWaitingTime w <> 0 ->
  let this := Trace.value (DistributionNonparametric Helper w) in
  Trace.value (DistributionNonparametric Helper (getWaitingTime this)) = this.
Proof.
  intros P. cbv zeta. unfold getWaitingTime.
  rewrite (constructor_spec Helper w); cbn [waitingTime].
  rewrite constructor_spec.
  assert (E : sumWaitingTime (stored w) = 1).
  { rewrite stored_exact, sum_divided by exact P. now apply Rdiv_diag. }
  assert (F : stored (stored w) = stored w).
  { pose proof (proj2 (neq_exact (sumWaitingTime (stored w)) one) E) as N.
    unfold stored at 1. now rewrite N. }
  now rewrite F, length_stored.
Qed.

(** X7. In exact arithmetic, non-negative weights of positive sum are
    stored as probabilities: every stored waiting time lies between [0]
    and [1]. *)
Theorem stored_are_probabilities (w : list R) :
  Forall (fun x => 0 <= x) w ->
  0 < sumWaitingTime w ->
  Forall (fun p => 0 <= p <= 1)
         (getWaitingTime (Trace.value (DistributionNonparametric Helper w))).
Proof.
  intros A P. rewrite constructor_spec; unfold getWaitingTime; cbn [waitingTime].
  rewrite stored_exact by lra.
  apply Forall_forall. intros p I.
  apply in_map_iff in I. destruct I as (x & <- & I).
  pose proof (proj2 (weight_le_sum A) x I) as U.
  pose proof (proj1 (Forall_forall _ _) A x I) as L. cbn beta in L.
  split.
  - unfold Rdiv. apply Rmult_le_pos; [lra|].
    left. now apply Rinv_0_lt_compat.
  - apply (Rmult_le_reg_r (sumWaitingTime w)); [exact P|].
    unfold Rdiv. rewrite Rmult_assoc, Rinv_l by lra. lra.
Qed.

End ExactCoverage.

(** Witness of X6: the reals [1, 1, 2]. *)
Lemma reconstruction_exact_witness :
  Trace.value
    (DistributionNonparametric calcTransitionProbHelper
       (getWaitingTime
          (Trace.value (DistributionNonparametric calcTransitionProbHelper [1; 1; 2]%R))))
  = Trace.value (DistributionNonparametric calcTransitionProbHelper [1; 1; 2]%R).
Proof.
  refine (@reconstruction_exact calcTransitionProbHelper [1; 1; 2]%R _).
  unfold sumWaitingTime; cbn. lra.
Defined.

(** Witness of X7: the reals [1, 0, 0, 1]. *)
Lemma stored_are_probabilities_witness :
  Forall (fun p => (0 <= p <= 1)%R)
         (getWaitingTime
            (Trace.value (DistributionNonparametric calcTransitionProbHelper [1; 0; 0; 1]%R))).
Proof.
  refine (@stored_are_probabilities calcTransitionProbHelper [1; 0; 0; 1]%R _ _).
  - repeat apply Forall_cons; try apply Forall_nil; lra.
  - unfold sumWaitingTime; cbn. lra.
Defined.

(** ** On doubles: a NaN weight *)

Lemma add_nan_r (x : float) : (x + nan)%float = nan.
Proof.
  apply Prim2SF_inj. rewrite add_spec.
  change (Prim2SF nan) with S754_nan.
  destruct (Prim2SF x) as [s|s| |s m e]; try reflexivity; destruct s; reflexivity.
Qed.

Lemma add_nan_l (x : float) : (nan + x)%float = nan.
Proof.
  apply Prim2SF_inj. rewrite add_spec.
  change (Prim2SF nan) with S754_nan. reflexivity.
Qed.

Lemma div_nan_r (x : float) : (x / nan)%float = nan.
Proof.
  apply Prim2SF_inj. rewrite div_spec.
  change (Prim2SF nan) with S754_nan.
  destruct (Prim2SF x) as [s|s| |s m e]; try reflexivity; destruct s; reflexivity.
Qed.

(** Once the running sum is a NaN it stays one. *)
Lemma sum_from_nan (w : list float) : fold_left PrimFloat.add w nan = nan.
Proof.
  induction w as [|x w IH]; simpl; [reflexivity|].
  now rewrite add_nan_l.
Qed.

Lemma sum_with_nan (w : list float) (a : float) :
  In nan w -> fold_left PrimFloat.add w a = nan.
Proof.
  revert a; induction w as [|x w IH]; intros a; simpl; [intros []|].
  intros [->|I].
  - rewrite add_nan_r. apply sum_from_nan.
  - now apply IH.
Qed.

Lemma over_nan (w : list float) :
  map (fun x => (x / nan)%float) w = repeat nan (length w).
Proof.
  induction w as [|x w IH]; simpl; [reflexivity|].
  now rewrite div_nan_r, IH.
Qed.

(** X8. On doubles, one NaN among the input weights turns every stored
    waiting time into a NaN, whatever the other weights and the helper:
    the sum is a NaN, it differs from [1], and every weight is divided by
    it; no error is raised. *)
Theorem nan_weight_poisons
  (Helper : list float -> nat -> Trace.t float float) (w : list float) :
  In nan w ->
  sumWaitingTime w = nan
  /\ getWaitingTime (Trace.value (DistributionNonparametric Helper w))
     = repeat nan (length w).
Proof.
  intros I.
  assert (E : sumWaitingTime w = nan) by (now apply sum_with_nan).
  split; [exact E|].
  rewrite constructor_spec; unfold getWaitingTime, stored; cbn [waitingTime].
  rewrite E. change (neq nan one) with true. cbv iota. apply over_nan.
Qed.

(** Witness of X8: the doubles [1, NaN, 2]. *)
Lemma nan_weight_poisons_witness :
  sumWaitingTime [1; nan; 2]%float = nan
  /\ getWaitingTime
       (Trace.value (DistributionNonparametric calcTransitionProbHelper [1; nan; 2]%float))
     = repeat nan 3.
Proof.
  refine (@nan_weight_poisons calcTransitionProbHelper [1; nan; 2]%float _).
  right; left; reflexivity.
Defined.
